(** * Model export dispatcher (src/model_export.py)

    A shallow embedding of the export functions of [model_export.py] and of
    the dispatcher [export_model], with the properties the specification
    states about them.

    The module drives third-party serialisation routines ([joblib.dump],
    [torch.save], [torch.onnx.export], [model.save_model], [model.save],
    the TFLite converter).  Their behaviour is not part of this repository:
    it is a parameter of the embedding (class [Runtime]).  What the
    embedding fixes is what the repository's own code does with them: which
    routine is called, on which object, with which path, in which order,
    and what happens to the exceptions they raise. *)

From Stdlib Require Import ZArith NArith Ascii String.
From stdpp Require Import gmap strings list fin_maps.

Local Open Scope string_scope.
Local Open Scope list_scope.
Local Open Scope stdpp_scope.

(** ** Python values, exceptions, files *)

(** A Python object as the module sees it: a string (output names are
    strings) or an opaque object identified by a handle (models, tensors,
    state dictionaries, converters, byte buffers). *)
Inductive pyval :=
| VStr (s : string)
| VObj (handle : N).

(** The exceptions of the module.  [ValueError] and [TypeError] are the
    ones the module's own code and the call protocol raise; the libraries
    may raise these and any other ([OtherError class message]). *)
Inductive exn :=
| ValueError (msg : string)
| TypeError (msg : string)
| FileExistsError (path : string)
| OtherError (class msg : string).

(** What sits at a path: a regular file with its bytes, or a directory
    (the SavedModel artifact and [models] itself). *)
Inductive node :=
| File (data : list Byte.byte)
| Directory.

(** The library routines that write an artifact.  Each constructor is one
    call of the source, with the arguments the source passes. *)
Inductive save_call :=
| joblib_dump (value : pyval) (filename : string)
| torch_save (obj : pyval) (f : string)
| torch_onnx_export (model args : pyval) (f : string)
    (export_params : bool) (opset_version : Z) (do_constant_folding : bool)
| save_model (model : pyval) (fname : string)
| keras_save (model : pyval) (filepath : string) (save_format : option string)
| open_wb_write (file : string) (data : pyval).

(** The library routines that only compute a value. *)
Inductive eval_call :=
| state_dict (model : pyval)
| from_keras_model (model : pyval)
| convert (converter : pyval).

(** The path a writing routine is given. *)
Definition target (c : save_call) : string :=
  match c with
  | joblib_dump _ p => p
  | torch_save _ p => p
  | torch_onnx_export _ _ p _ _ _ => p
  | save_model _ p => p
  | keras_save _ p _ => p
  | open_wb_write p _ => p
  end.

(** Outcome of a writing routine: it wrote [n] at its path, or it raised
    [e], possibly leaving a partial artifact at its path. *)
Inductive save_reply :=
| Wrote (n : node)
| SaveRaised (e : exn) (partial : option node).

Inductive result (A : Type) :=
| Ok (a : A)
| Raise (e : exn).
Arguments Ok {A} a.
Arguments Raise {A} e.

(** Observable events, in program order. *)
Inductive event :=
| Saved (c : save_call) (n : node)
| SaveFailed (c : save_call) (e : exn) (partial : option node)
| Evaluated (c : eval_call) (v : pyval)
| EvalFailed (c : eval_call) (e : exn)
| Printed (line : string)
| MadeDir (path : string).

Record world := World {
  fs : gmap string node;
  trace : list event
}.

(** The environment the module runs in: the third-party routines and
    [str()] of opaque objects (used by f-strings).  A routine's outcome may
    depend on its arguments and on the files present. *)
Class Runtime := {
  on_save : save_call → gmap string node → save_reply;
  on_eval : eval_call → gmap string node → result pyval;
  obj_str : N → string
}.

(** ** The monad of Python statements: state and exceptions.
    A raised exception keeps the state reached so far. *)
Definition M (A : Type) : Type := world → result A * world.

Definition raise {A} (e : exn) : M A := λ w, (Raise e, w).

#[global] Instance M_ret : MRet M := λ A a w, (Ok a, w).

#[global] Instance M_bind : MBind M := λ A B k m w,
  match m w with
  | (Ok a, w') => k a w'
  | (Raise e, w') => (Raise e, w')
  end.

Definition emit (ev : event) (w : world) : world :=
  World (fs w) (trace w ++ [ev]).

Definition write (p : string) (n : node) (w : world) : world :=
  World (<[p := n]> (fs w)) (trace w).

Definition leave (p : string) (partial : option node) (w : world) : world :=
  match partial with
  | Some n => write p n w
  | None => w
  end.

Section Primitives.
Context `{!Runtime}.

(** A call of a writing library routine. *)
Definition save (c : save_call) : M unit := λ w,
  match on_save c (fs w) with
  | Wrote n => (Ok (), emit (Saved c n) (write (target c) n w))
  | SaveRaised e partial =>
      (Raise e, emit (SaveFailed c e partial) (leave (target c) partial w))
  end.

(** A call of a computing library routine. *)
Definition eval (c : eval_call) : M pyval := λ w,
  match on_eval c (fs w) with
  | Ok v => (Ok v, emit (Evaluated c v) w)
  | Raise e => (Raise e, emit (EvalFailed c e) w)
  end.

(** [print(line)] *)
Definition print (line : string) : M unit := λ w,
  (Ok (), emit (Printed line) w).

(** [os.makedirs(name, exist_ok=...)] for a single path component. *)
Definition makedirs (name : string) (exist_ok : bool) : M unit := λ w,
  match fs w !! name with
  | None => (Ok (), emit (MadeDir name) (write name Directory w))
  | Some Directory =>
      if exist_ok then (Ok (), w) else (Raise (FileExistsError name), w)
  | Some (File _) => (Raise (FileExistsError name), w)
  end.

(** [f"{v}"]: a string formats as itself, an object through [str]. *)
Definition fstr (v : pyval) : string :=
  match v with
  | VStr s => s
  | VObj h => obj_str h
  end.
End Primitives.

(** ** Strings *)

(** [str.lower()] on one character, for the code points below 256 that
    [ascii] holds: [A]-[Z] and the Latin-1 capitals (U+00C0-U+00DE except
    the multiplication sign U+00D7) move 32 places up, the rest stay. *)
Definition lower_char (c : ascii) : ascii :=
  let n := N_of_ascii c in
  if ((65 <=? n) && (n <=? 90)
      || (192 <=? n) && (n <=? 222) && negb (n =? 215))%N
  then ascii_of_N (n + 32)
  else c.

(** [s.lower()] *)
Fixpoint lower (s : string) : string :=
  match s with
  | EmptyString => EmptyString
  | String c s' => String (lower_char c) (lower s')
  end.

(** ** Calling a Python function with [**kwargs]

    [kwargs] is a dict: its items in insertion order.  The interpreter
    takes the keywords in that order; a keyword that names no parameter, or
    a parameter that already has a value, raises [TypeError]. *)
Fixpoint bind_keywords (fname : string) (params : list string)
    (bound : gmap string pyval) (kwargs : list (string * pyval))
    : result (gmap string pyval) :=
  match kwargs with
  | [] => Ok bound
  | (k, v) :: rest =>
      if bool_decide (k ∈ params) then
        match bound !! k with
        | Some _ =>
            Raise (TypeError
              (fname +:+ "() got multiple values for argument '" +:+ k +:+ "'"))
        | None => bind_keywords fname params (<[k := v]> bound) rest
        end
      else
        Raise (TypeError
          (fname +:+ "() got an unexpected keyword argument '" +:+ k +:+ "'"))
  end.

(** The arguments of a call of [fname] with positional arguments and a
    keyword dict. *)
Definition call_args (fname : string) (params : list string)
    (positional : list pyval) (kwargs : list (string * pyval)) : M (gmap string pyval) :=
  match bind_keywords fname params
          (list_to_map (zip params positional)) kwargs with
  | Ok bound => mret bound
  | Raise e => raise e
  end.

(** The parameter [name="model"] of every exporter. *)
Definition name_arg (bound : gmap string pyval) : pyval :=
  default (VStr "model") (bound !! "name").

(** [k in kwargs] *)
Definition contains (kwargs : list (string * pyval)) (k : string) : bool :=
  bool_decide (k ∈ kwargs.*1).

(** [kwargs[k]] *)
Fixpoint getitem (kwargs : list (string * pyval)) (k : string) : M pyval :=
  match kwargs with
  | [] => raise (OtherError "KeyError" k)
  | (k', v) :: rest => if bool_decide (k' = k) then mret v else getitem rest k
  end.

(** ** The exporters *)

Section Exporters.
Context `{!Runtime}.

(** [os.makedirs("models", exist_ok=True)], run when the module is
    imported, before any of its functions can be called. *)
Definition import_module : M unit :=
  makedirs "models" true.

Definition export_sklearn_model (model name : pyval) : M unit :=
  save (joblib_dump model ("models/" +:+ fstr name +:+ ".pkl"));;
  save (joblib_dump model ("models/" +:+ fstr name +:+ ".joblib"));;
  save (joblib_dump model ("models/" +:+ fstr name +:+ ".bin"));;
  print ("[INFO] Scikit-learn model exported as: " +:+ fstr name +:+ ".pkl, "
         +:+ fstr name +:+ ".joblib, " +:+ fstr name +:+ ".bin").

Definition export_pytorch_model (model sample_input name : pyval) : M unit :=
  sd ← eval (state_dict model);
  save (torch_save sd ("models/" +:+ fstr name +:+ ".pt"));;
  sd' ← eval (state_dict model);
  save (torch_save sd' ("models/" +:+ fstr name +:+ ".bin"));;
  save (torch_onnx_export model sample_input
          ("models/" +:+ fstr name +:+ ".onnx") true 12 true);;
  print ("[INFO] PyTorch model exported as: " +:+ fstr name +:+ ".pt, "
         +:+ fstr name +:+ ".bin, " +:+ fstr name +:+ ".onnx").

Definition export_xgboost_model (model name : pyval) : M unit :=
  save (save_model model ("models/" +:+ fstr name +:+ ".bin"));;
  save (save_model model ("models/" +:+ fstr name +:+ ".json"));;
  print ("[INFO] XGBoost model exported as: " +:+ fstr name +:+ ".bin, "
         +:+ fstr name +:+ ".json").

Definition export_lightgbm_model (model name : pyval) : M unit :=
  save (save_model model ("models/" +:+ fstr name +:+ ".bin"));;
  save (save_model model ("models/" +:+ fstr name +:+ ".txt"));;
  print ("[INFO] LightGBM model exported as: " +:+ fstr name +:+ ".bin, "
         +:+ fstr name +:+ ".txt").

Definition export_catboost_model (model name : pyval) : M unit :=
  save (save_model model ("models/" +:+ fstr name +:+ ".bin"));;
  save (save_model model ("models/" +:+ fstr name +:+ ".cbm"));;
  print ("[INFO] CatBoost model exported as: " +:+ fstr name +:+ ".bin, "
         +:+ fstr name +:+ ".cbm").

(** The [with open(..., "wb") as f: f.write(...)] block is one writing
    call, [open_wb_write]. *)
Definition export_keras_model (model name : pyval) : M unit :=
  save (keras_save model ("models/" +:+ fstr name +:+ ".h5") None);;
  save (keras_save model ("models/" +:+ fstr name +:+ "_saved_model") (Some "tf"));;
  converter ← eval (from_keras_model model);
  tflite_model ← eval (convert converter);
  save (open_wb_write ("models/" +:+ fstr name +:+ ".tflite") tflite_model);;
  print ("[INFO] Keras model exported as: " +:+ fstr name +:+ ".h5, "
         +:+ fstr name +:+ "_saved_model/, " +:+ fstr name +:+ ".tflite").

(** ** The dispatcher *)

Definition export_model (model : pyval) (framework : string)
    (kwargs : list (string * pyval)) : M unit :=
  let framework := lower framework in
  if bool_decide (framework = "sklearn") then
    a ← call_args "export_sklearn_model" ["model"; "name"] [model] kwargs;
    export_sklearn_model model (name_arg a)
  else if bool_decide (framework = "pytorch") then
    if negb (contains kwargs "sample_input") then
      raise (ValueError "PyTorch export requires 'sample_input' argument")
    else
      sample_input ← getitem kwargs "sample_input";
      a ← call_args "export_pytorch_model" ["model"; "sample_input"; "name"]
            [model; sample_input] kwargs;
      export_pytorch_model model sample_input (name_arg a)
  else if bool_decide (framework = "xgboost") then
    a ← call_args "export_xgboost_model" ["model"; "name"] [model] kwargs;
    export_xgboost_model model (name_arg a)
  else if bool_decide (framework = "lightgbm") then
    a ← call_args "export_lightgbm_model" ["model"; "name"] [model] kwargs;
    export_lightgbm_model model (name_arg a)
  else if bool_decide (framework = "catboost") then
    a ← call_args "export_catboost_model" ["model"; "name"] [model] kwargs;
    export_catboost_model model (name_arg a)
  else if bool_decide (framework = "keras") then
    a ← call_args "export_keras_model" ["model"; "name"] [model] kwargs;
    export_keras_model model (name_arg a)
  else
    raise (ValueError ("Unsupported framework: " +:+ framework)).
End Exporters.

(** ** Vocabulary of the specification *)

(** The framework tags of the docstring of [export_model]. *)
Definition supported_frameworks : list string :=
  ["sklearn"; "pytorch"; "xgboost"; "lightgbm"; "catboost"; "keras"].

(** Two tags match case-insensitively when they have the same lower-case
    form. *)
Definition matches_ci (tag s : string) : Prop := lower tag = lower s.

Definition supported (tag : string) : Prop :=
  ∃ s, s ∈ supported_frameworks ∧ matches_ci tag s.

(** The artifact table of the specification (section 6), for output name
    [N]: the paths under [models/], in the order of the table. *)
Definition documented_artifacts (framework N : string) : list string :=
  if bool_decide (framework = "sklearn") then
    ["models/" +:+ N +:+ ".pkl"; "models/" +:+ N +:+ ".joblib";
     "models/" +:+ N +:+ ".bin"]
  else if bool_decide (framework = "pytorch") then
    ["models/" +:+ N +:+ ".pt"; "models/" +:+ N +:+ ".bin";
     "models/" +:+ N +:+ ".onnx"]
  else if bool_decide (framework = "xgboost") then
    ["models/" +:+ N +:+ ".bin"; "models/" +:+ N +:+ ".json"]
  else if bool_decide (framework = "lightgbm") then
    ["models/" +:+ N +:+ ".bin"; "models/" +:+ N +:+ ".txt"]
  else if bool_decide (framework = "catboost") then
    ["models/" +:+ N +:+ ".bin"; "models/" +:+ N +:+ ".cbm"]
  else if bool_decide (framework = "keras") then
    ["models/" +:+ N +:+ ".h5"; "models/" +:+ N +:+ "_saved_model";
     "models/" +:+ N +:+ ".tflite"]
  else [].

(** What an event did to the file system. *)
Definition effect (ev : event) : option (string * node) :=
  match ev with
  | Saved c n => Some (target c, n)
  | SaveFailed c _ (Some n) => Some (target c, n)
  | MadeDir p => Some (p, Directory)
  | _ => None
  end.

Definition apply_event (files : gmap string node) (ev : event) : gmap string node :=
  match effect ev with
  | Some (p, n) => <[p := n]> files
  | None => files
  end.

(** The files after a run of events. *)
Definition replay (evs : list event) (files : gmap string node) : gmap string node :=
  foldl apply_event files evs.

(** The exception a library routine raised, for the events that record a
    failed call. *)
Definition failure (ev : event) : option exn :=
  match ev with
  | SaveFailed _ e _ => Some e
  | EvalFailed _ e => Some e
  | _ => None
  end.

(** The path of the writing call an event records. *)
Definition save_path (ev : event) : option string :=
  match ev with
  | Saved c _ => Some (target c)
  | SaveFailed c _ _ => Some (target c)
  | _ => None
  end.

Definition is_mkdir (ev : event) : bool :=
  match ev with
  | MadeDir _ => true
  | _ => false
  end.

Definition is_ok {A} (r : result A) : bool :=
  match r with
  | Ok _ => true
  | Raise _ => false
  end.

Definition is_wrote (r : save_reply) : bool :=
  match r with
  | Wrote _ => true
  | SaveRaised _ _ => false
  end.

Section Clients.
Context `{!Runtime}.

(** The six exporters, applied to a model, a sample input (used by the
    PyTorch one only) and an output name. *)
Definition exporters (model sample_input name : pyval) : list (M unit) :=
  [export_sklearn_model model name;
   export_pytorch_model model sample_input name;
   export_xgboost_model model name;
   export_lightgbm_model model name;
   export_catboost_model model name;
   export_keras_model model name].

(** A caller that catches whatever a call raises and goes on. *)
Definition attempt (m : M unit) : M unit := λ w,
  match m w with
  | (_, w') => (Ok (), w')
  end.

(** A client of the module: it imports the module, then calls
    [export_model] any number of times, with any arguments. *)
Fixpoint requests (rs : list (pyval * string * list (string * pyval))) : M unit :=
  match rs with
  | [] => mret ()
  | (model, framework, kwargs) :: rest =>
      attempt (export_model model framework kwargs);; requests rest
  end.

Definition client (rs : list (pyval * string * list (string * pyval))) : M unit :=
  import_module;; requests rs.

(** "Created lazily": the directory is not made before an export needs
    it, so a client that imports the module and makes no export leaves a
    working directory without [models] as it found it. *)
Definition created_lazily : Prop :=
  ∀ w, fs w !! "models" = None → fs (client [] w).2 !! "models" = None.

(** The libraries overwrite: a routine that succeeds still succeeds (a
    computing one with the same value) when more paths exist on disk, in
    particular when the path it writes already exists. *)
Definition overwrite_tolerant : Prop :=
  (∀ c files files', dom files ⊆ dom files' →
     is_wrote (on_save c files) → is_wrote (on_save c files'))
  ∧ (∀ c files files' v, dom files ⊆ dom files' →
       on_eval c files = Ok v → on_eval c files' = Ok v).

(** [joblib.dump] serialises the value it is given: what it writes is
    determined by that value. *)
Definition joblib_serialises : Prop :=
  ∀ value p p' files files' n n',
    on_save (joblib_dump value p) files = Wrote n →
    on_save (joblib_dump value p') files' = Wrote n' →
    n = n'.
End Clients.

(** ** Sample runtimes and worlds *)

(** Every routine succeeds; a SavedModel is a directory, the other
    artifacts are files. *)
Definition healthy : Runtime := {|
  on_save := λ c _,
    match c with
    | keras_save _ _ (Some _) => Wrote Directory
    | joblib_dump _ _ => Wrote (File [Byte.x80; Byte.x04])
    | _ => Wrote (File [Byte.x2a])
    end;
  on_eval := λ c _,
    match c with
    | state_dict _ => Ok (VObj 100)
    | from_keras_model _ => Ok (VObj 101)
    | convert _ => Ok (VObj 102)
    end;
  obj_str := λ _, "<object>"
|}.

(** The second and later writes of an export fail (a full disk), leaving a
    truncated file behind. *)
Definition disk_full : Runtime := {|
  on_save := λ c files,
    if bool_decide (size files ≤ 1)%nat then
      Wrote (File [Byte.x2a])
    else SaveRaised (OtherError "OSError" "No space left on device") (Some (File []));
  on_eval := λ c _, Ok (VObj 100);
  obj_str := λ _, "<object>"
|}.

(** A trained model, a sample input tensor. *)
Definition a_model : pyval := VObj 1.
Definition a_tensor : pyval := VObj 2.

(** A fresh working directory, before the module is imported. *)
Definition empty_world : world := World ∅ [].

(** The working directory after the import. *)
Definition imported_world : world :=
  World {["models" := Directory]} [MadeDir "models"].

(** ** What a run of the module's code looks like

    [runs paths m]: a run of [m] appends events to the trace; the files
    after it are the files before it with the effects of these events; a
    routine that raised is the last event of the run and its exception is
    the result; the writing calls are made on [paths], in that order, all
    of them when the run succeeds; no directory is created. *)
Definition faithful {A} (r : result A) (evs : list event) : Prop :=
  ∀ i ev e, evs !! i = Some ev → failure ev = Some e →
    r = Raise e ∧ length evs = S i.

Definition runs {A} (paths : list string) (m : M A) : Prop :=
  ∀ w, ∃ evs,
    trace (m w).2 = trace w ++ evs
    ∧ fs (m w).2 = replay evs (fs w)
    ∧ faithful (m w).1 evs
    ∧ omap save_path evs `prefix_of` paths
    ∧ (is_ok (m w).1 → omap save_path evs = paths)
    ∧ Forall (λ ev, is_mkdir ev = false) evs.

(** [steady m]: when [m] succeeds in one world, it returns the same value
    in every world that has at least the same paths, and the world it
    leaves has at least the paths of the one it left before. *)
Definition steady {A} (m : M A) : Prop :=
  ∀ w w', dom (fs w) ⊆ dom (fs w') → is_ok (m w).1 →
    (m w').1 = (m w).1 ∧ dom (fs (m w).2) ⊆ dom (fs (m w').2).

(** ** Vocabulary for the paths, the tags and the messages *)

(** The suffixes the exporters append to the output name. *)
Definition artifact_extensions : list string :=
  [".pkl"; ".joblib"; ".bin"; ".pt"; ".onnx"; ".json"; ".txt"; ".cbm";
   ".h5"; "_saved_model"; ".tflite"].

(** The suffixes of each exporter, in the order of [exporters] and in the
    order of the writing calls. *)
Definition exporter_extensions : list (list string) :=
  [[".pkl"; ".joblib"; ".bin"];
   [".pt"; ".bin"; ".onnx"];
   [".bin"; ".json"];
   [".bin"; ".txt"];
   [".bin"; ".cbm"];
   [".h5"; "_saved_model"; ".tflite"]].

(** The path an exporter builds from the output name and a suffix. *)
Definition artifact_path `{!Runtime} (name : pyval) (ext : string) : string :=
  "models/" +:+ fstr name +:+ ext.

(** The exporters that write [N.bin]: all but the Keras one. *)
Definition bin_exporters `{!Runtime} (model sample_input name : pyval) : list (M unit) :=
  [export_sklearn_model model name;
   export_pytorch_model model sample_input name;
   export_xgboost_model model name;
   export_lightgbm_model model name;
   export_catboost_model model name].

(** The capitals [lower_char] moves. *)
Definition is_upper (c : ascii) : bool :=
  let n := N_of_ascii c in
  ((65 <=? n) && (n <=? 90)
   || (192 <=? n) && (n <=? 222) && negb (n =? 215))%N.

Definition small_of (c : ascii) : ascii := ascii_of_N (N_of_ascii c + 32).

(** Two characters are the same letter when they are equal or one is the
    capital of the other. *)
Definition same_letter (c1 c2 : ascii) : bool :=
  Ascii.eqb c1 c2
  || is_upper c1 && Ascii.eqb c2 (small_of c1)
  || is_upper c2 && Ascii.eqb c1 (small_of c2).

(** Two tags are case variants of each other: same length, the same letter
    at every place. *)
Fixpoint same_ignoring_case (s t : string) : bool :=
  match s, t with
  | EmptyString, EmptyString => true
  | String c s', String d t' => same_letter c d && same_ignoring_case s' t'
  | _, _ => false
  end.

Definition is_print (ev : event) : bool :=
  match ev with
  | Printed _ => true
  | _ => false
  end.

(** The TFLite conversion fails (an operator the converter does not
    support); everything else succeeds. *)
Definition conversion_fails : Runtime := {|
  on_save := λ _ _, Wrote (File [Byte.x2a]);
  on_eval := λ c _,
    match c with
    | convert _ => Raise (OtherError "ConverterError" "unsupported op")
    | _ => Ok (VObj 101)
    end;
  obj_str := λ _, "<object>"
|}.

(** A working directory in which [models] is a regular file. *)
Definition blocked_world : world := World {["models" := File []]} [].

(** [silent m]: a run of [m] prints nothing.  [announcing m]: a run of [m]
    prints one line, as its last event, when it succeeds, and nothing when
    it fails. *)
Definition silent {A} (m : M A) : Prop :=
  ∀ w, ∃ evs, trace (m w).2 = trace w ++ evs
              ∧ Forall (λ ev, is_print ev = false) evs.

Definition announcing {A} (m : M A) : Prop :=
  ∀ w, ∃ evs, trace (m w).2 = trace w ++ evs
    ∧ match (m w).1 with
      | Ok _ => ∃ pre line, evs = pre ++ [Printed line]
                            ∧ Forall (λ ev, is_print ev = false) pre
      | Raise _ => Forall (λ ev, is_print ev = false) evs
      end.

(** * Properties *)

(** ** Strings and paths *)

Lemma append_inv_head (s t t' : string) : s +:+ t = s +:+ t' → t = t'.
Proof.
  induction s as [|c s IH]; simpl; [done|].
  intros [= Heq]. by apply IH.
Qed.

Lemma lower_supported (s : string) :
  s ∈ supported_frameworks → lower s = s.
Proof.
  unfold supported_frameworks. intros Hs.
  repeat (apply elem_of_cons in Hs as [-> | Hs]; [reflexivity|]).
  by apply elem_of_nil in Hs.
Qed.

Lemma supported_lower (tag : string) :
  supported tag ↔ lower tag ∈ supported_frameworks.
Proof.
  unfold supported, matches_ci. split.
  - intros (s & Hs & Heq). rewrite Heq, lower_supported; done.
  - intros Hin. exists (lower tag). split; [done|].
    by rewrite (lower_supported (lower tag)).
Qed.

(** ** Events and files *)

Lemma replay_app (evs evs' : list event) (files : gmap string node) :
  replay (evs ++ evs') files = replay evs' (replay evs files).
Proof. unfold replay. apply foldl_app. Qed.

Lemma replay_lookup_other (evs : list event) (files : gmap string node) (p : string) :
  (∀ ev q n, ev ∈ evs → effect ev = Some (q, n) → q ≠ p) →
  replay evs files !! p = files !! p.
Proof.
  revert files. induction evs as [|ev evs IH]; intros files Hne; [done|].
  change (replay (ev :: evs) files) with (replay evs (apply_event files ev)).
  rewrite IH.
  - unfold apply_event. destruct (effect ev) as [[q n]|] eqn:Heff; [|done].
    rewrite lookup_insert_ne; [done|]. eapply Hne; [left|done].
  - intros ev' q n Hin. apply Hne. by right.
Qed.

Lemma effect_save_path (ev : event) (q : string) (n : node) :
  is_mkdir ev = false → effect ev = Some (q, n) → save_path ev = Some q.
Proof.
  destruct ev as [c n'|c e [n'|]| | | |]; simpl; intros; simplify_eq; done.
Qed.

Lemma elem_of_save_paths (evs : list event) (ev : event) (q : string) :
  ev ∈ evs → save_path ev = Some q → q ∈ omap save_path evs.
Proof. intros Hin Hq. apply list_elem_of_omap. eauto. Qed.

(** ** The monad *)

Lemma runs_ret {A} (a : A) : runs [] (mret a : M A).
Proof.
  intros w. exists []. simpl. rewrite app_nil_r.
  split_and!; try done.
  all: intros i ev e' Hi; by rewrite lookup_nil in Hi.
Qed.

Lemma runs_raise {A} (e : exn) : runs [] (raise e : M A).
Proof.
  intros w. exists []. simpl. rewrite app_nil_r.
  split_and!; try done.
  all: intros i ev e' Hi; by rewrite lookup_nil in Hi.
Qed.

Lemma faithful_singleton {A} (r : result A) (ev : event) :
  (∀ e, failure ev = Some e → r = Raise e) → faithful r [ev].
Proof.
  intros H i ev' e Hi Hf. destruct i as [|i]; simpl in Hi; [|by destruct i].
  simplify_eq. split; [by apply H | done].
Qed.

Lemma runs_print `{!Runtime} (line : string) : runs [] (print line).
Proof.
  intros w. exists [Printed line]. simpl.
  split_and!; try done.
  - by apply faithful_singleton.
  - by repeat constructor.
Qed.

Lemma runs_eval `{!Runtime} (c : eval_call) : runs [] (eval c).
Proof.
  intros w. unfold eval.
  destruct (on_eval c (fs w)) as [v|e].
  - exists [Evaluated c v]. simpl. split_and!; try done.
    + by apply faithful_singleton.
    + by repeat constructor.
  - exists [EvalFailed c e]. simpl. split_and!; try done.
    + apply faithful_singleton. by intros e' [= ->].
    + by repeat constructor.
Qed.

Lemma runs_save `{!Runtime} (c : save_call) : runs [target c] (save c).
Proof.
  intros w. unfold save.
  destruct (on_save c (fs w)) as [n|e partial].
  - exists [Saved c n]. simpl. split_and!; try done.
    + by apply faithful_singleton.
    + by repeat constructor.
  - exists [SaveFailed c e partial]. simpl. split_and!; try done.
    + by destruct partial.
    + by destruct partial.
    + apply faithful_singleton. by intros e' [= ->].
    + by repeat constructor.
Qed.

Lemma faithful_ok_no_failure {A} (a : A) (evs : list event) (ev : event) :
  faithful (Ok a) evs → ev ∈ evs → failure ev = None.
Proof.
  intros Hf Hin. apply list_elem_of_lookup in Hin as [i Hi].
  destruct (failure ev) as [e|] eqn:He; [|done].
  by destruct (Hf i ev e Hi He).
Qed.

Lemma runs_bind {A B} (paths paths' : list string) (m : M A) (k : A → M B) :
  runs paths m → (∀ a, runs paths' (k a)) → runs (paths ++ paths') (m ≫= k).
Proof.
  intros Hm Hk w. unfold mbind, M_bind.
  destruct (Hm w) as (evs & Ht & Hfs & Hf & Hpre & Hall & Hmk).
  destruct (m w) as [[a|e] w1]; simpl in *.
  - destruct (Hk a w1) as (evs' & Ht' & Hfs' & Hf' & Hpre' & Hall' & Hmk').
    exists (evs ++ evs'). rewrite Ht', Ht, Hfs', Hfs, replay_app, omap_app, Hall by done.
    rewrite (assoc_L (++)). split_and!; try done.
    + intros i ev e Hi He.
      destruct (decide (i < length evs)) as [Hlt|Hge].
      * rewrite lookup_app_l in Hi by done.
        by destruct (Hf i ev e Hi He).
      * rewrite lookup_app_r in Hi by lia.
        destruct (Hf' _ ev e Hi He) as [-> Hlen].
        split; [done|]. rewrite length_app. lia.
    + by apply prefix_app.
    + intros Hok. by rewrite Hall'.
    + by apply Forall_app.
  - exists evs. simpl. split_and!; try done.
    + intros i ev e' Hi He. by destruct (Hf i ev e' Hi He) as [[= ->] ?].
    + by apply prefix_app_r.
Qed.

Lemma runs_seq {A} (p : string) (paths' : list string) (m : M unit) (k : M A) :
  runs [p] m → runs paths' k → runs (p :: paths') (m ≫= λ _, k).
Proof. intros Hm Hk. by apply (runs_bind [p] paths'). Qed.

Lemma runs_with {A B} (paths' : list string) (m : M A) (k : A → M B) :
  runs [] m → (∀ a, runs paths' (k a)) → runs paths' (m ≫= k).
Proof. intros Hm Hk. by apply (runs_bind [] paths'). Qed.

(** ** Consequences of [runs] *)

Lemma replay_cons (ev : event) (evs : list event) (files : gmap string node) :
  replay (ev :: evs) files = replay evs (apply_event files ev).
Proof. done. Qed.

Lemma replay_keeps_saved (evs : list event) (files : gmap string node)
    (c : save_call) (n : node) :
  NoDup (omap save_path evs) →
  Forall (λ ev, is_mkdir ev = false) evs →
  Saved c n ∈ evs →
  replay evs files !! target c = Some n.
Proof.
  revert files. induction evs as [|ev evs IH]; intros files Hnd Hmk Hin.
  { by apply elem_of_nil in Hin. }
  apply Forall_cons in Hmk as [Hmk1 Hmk].
  rewrite replay_cons.
  apply elem_of_cons in Hin as [<- | Hin].
  - simpl in Hnd. apply NoDup_cons in Hnd as [Hfresh _].
    rewrite replay_lookup_other.
    + unfold apply_event. simpl. apply lookup_insert_eq.
    + intros ev' q n' Hev' Heff ->. apply Hfresh.
      eapply elem_of_save_paths; [done|].
      eapply effect_save_path; [|done].
      by eapply Forall_forall in Hmk.
  - apply IH; [|done..].
    simpl in Hnd. destruct (save_path ev); [|done].
    by apply NoDup_cons in Hnd as [_ ?].
Qed.

Lemma replay_dom_success (evs : list event) (files : gmap string node) :
  Forall (λ ev, is_mkdir ev = false) evs →
  (∀ ev, ev ∈ evs → failure ev = None) →
  dom (replay evs files) = dom files ∪ list_to_set (omap save_path evs).
Proof.
  revert files. induction evs as [|ev evs IH]; intros files Hmk Hok.
  { simpl. by rewrite (right_id_L ∅ (∪)). }
  apply Forall_cons in Hmk as [Hmk1 Hmk].
  rewrite replay_cons, IH; [|done|intros; apply Hok; by right].
  assert (failure ev = None) as Hev by (apply Hok; by left).
  destruct ev as [c n|c e partial| | | |]; simpl in *; try done.
  unfold apply_event. simpl.
  by rewrite dom_insert_L, (comm_L (∪) {[target c]}), <- (assoc_L (∪)).
Qed.

Lemma runs_trace {A} (paths : list string) (m : M A) (w : world) (evs : list event) :
  runs paths m →
  trace (m w).2 = trace w ++ evs →
  fs (m w).2 = replay evs (fs w)
  ∧ faithful (m w).1 evs
  ∧ omap save_path evs `prefix_of` paths
  ∧ (is_ok (m w).1 → omap save_path evs = paths)
  ∧ Forall (λ ev, is_mkdir ev = false) evs.
Proof.
  intros Hm Ht. destruct (Hm w) as (evs' & Ht' & H').
  rewrite Ht' in Ht. apply app_inv_head in Ht. by subst.
Qed.

Lemma NoDup_prefix {A} (l k : list A) : l `prefix_of` k → NoDup k → NoDup l.
Proof. intros [k' ->] Hnd. by apply NoDup_app in Hnd as [? _]. Qed.

Lemma runs_keeps_saved {A} (paths : list string) (m : M A) (w : world)
    (evs : list event) (c : save_call) (n : node) :
  runs paths m → NoDup paths →
  trace (m w).2 = trace w ++ evs →
  Saved c n ∈ evs →
  fs (m w).2 !! target c = Some n.
Proof.
  intros Hm Hnd Ht Hin.
  destruct (runs_trace _ _ _ _ Hm Ht) as (-> & _ & Hpre & _ & Hmk).
  apply replay_keeps_saved; [|done..].
  by eapply NoDup_prefix.
Qed.

Lemma runs_dom {A} (paths : list string) (m : M A) (w : world) :
  runs paths m → is_ok (m w).1 →
  dom (fs (m w).2) = dom (fs w) ∪ list_to_set paths.
Proof.
  intros Hm Hok. destruct (Hm w) as (evs & Ht & -> & Hf & _ & Hall & Hmk).
  rewrite <- (Hall Hok). apply replay_dom_success; [done|].
  intros ev Hev. destruct ((m w).1) as [a|e]; [|done].
  by eapply faithful_ok_no_failure.
Qed.

Lemma runs_keeps_other {A} (paths : list string) (m : M A) (w : world) (p : string) :
  runs paths m → p ∉ paths →
  ∀ evs pre, trace (m w).2 = trace w ++ evs → pre `prefix_of` evs →
    replay pre (fs w) !! p = fs w !! p.
Proof.
  intros Hm Hp evs pre Ht [post ->].
  destruct (runs_trace _ _ _ _ Hm Ht) as (_ & _ & Hpre & _ & Hmk).
  apply replay_lookup_other. intros ev q n Hev Heff ->. apply Hp.
  rewrite omap_app in Hpre. apply Forall_app in Hmk as [Hmk _].
  destruct Hpre as [rest ->]. rewrite <- (assoc_L (++)).
  apply elem_of_app. left.
  eapply elem_of_save_paths; [done|].
  eapply effect_save_path; [|done].
  by eapply Forall_forall in Hmk.
Qed.

(** ** The exporters run as [runs] says *)

Ltac path_neq :=
  let Heq := fresh "Heq" in
  intros Heq; simpl in Heq;
  first [ discriminate Heq
        | do 2 apply append_inv_head in Heq; discriminate Heq
        | injection Heq; intros; subst; discriminate ].

Ltac paths_distinct :=
  repeat (apply NoDup_cons; split;
          [rewrite ?not_elem_of_cons; split_and?; try path_neq; apply not_elem_of_nil|]);
  apply NoDup_nil_2.

Ltac run_steps :=
  repeat first
    [ apply runs_print
    | apply runs_save
    | apply runs_eval
    | apply runs_seq; [apply runs_save|]
    | apply runs_with; [apply runs_eval|intros ?] ].

Section ExportersRun.
Context `{!Runtime}.

Lemma export_sklearn_model_runs (model name : pyval) :
  runs ["models/" +:+ fstr name +:+ ".pkl"; "models/" +:+ fstr name +:+ ".joblib";
        "models/" +:+ fstr name +:+ ".bin"] (export_sklearn_model model name).
Proof. unfold export_sklearn_model. run_steps. Qed.

Lemma export_pytorch_model_runs (model sample_input name : pyval) :
  runs ["models/" +:+ fstr name +:+ ".pt"; "models/" +:+ fstr name +:+ ".bin";
        "models/" +:+ fstr name +:+ ".onnx"]
    (export_pytorch_model model sample_input name).
Proof. unfold export_pytorch_model. run_steps. Qed.

Lemma export_xgboost_model_runs (model name : pyval) :
  runs ["models/" +:+ fstr name +:+ ".bin"; "models/" +:+ fstr name +:+ ".json"]
    (export_xgboost_model model name).
Proof. unfold export_xgboost_model. run_steps. Qed.

Lemma export_lightgbm_model_runs (model name : pyval) :
  runs ["models/" +:+ fstr name +:+ ".bin"; "models/" +:+ fstr name +:+ ".txt"]
    (export_lightgbm_model model name).
Proof. unfold export_lightgbm_model. run_steps. Qed.

Lemma export_catboost_model_runs (model name : pyval) :
  runs ["models/" +:+ fstr name +:+ ".bin"; "models/" +:+ fstr name +:+ ".cbm"]
    (export_catboost_model model name).
Proof. unfold export_catboost_model. run_steps. Qed.

Lemma export_keras_model_runs (model name : pyval) :
  runs ["models/" +:+ fstr name +:+ ".h5"; "models/" +:+ fstr name +:+ "_saved_model";
        "models/" +:+ fstr name +:+ ".tflite"] (export_keras_model model name).
Proof. unfold export_keras_model. run_steps. Qed.

(** Every exporter makes its writing calls on a fixed list of distinct
    paths, none of which is the directory [models] itself. *)
Lemma exporters_run (model sample_input name : pyval) (run : M unit) :
  run ∈ exporters model sample_input name →
  ∃ paths, runs paths run ∧ NoDup paths ∧ "models" ∉ paths.
Proof.
  unfold exporters. intros Hrun.
  repeat (apply elem_of_cons in Hrun as [-> | Hrun]);
    [eexists; split_and!;
       [first [ apply export_sklearn_model_runs | apply export_pytorch_model_runs
              | apply export_xgboost_model_runs | apply export_lightgbm_model_runs
              | apply export_catboost_model_runs | apply export_keras_model_runs ]
       | paths_distinct
       | rewrite ?not_elem_of_cons; split_and?; try path_neq; apply not_elem_of_nil ]..
    | by apply elem_of_nil in Hrun].
Qed.
End ExportersRun.

(** ** Success is kept when more paths exist, when the libraries overwrite *)

Lemma steady_bind {A B} (m : M A) (k : A → M B) :
  steady m → (∀ a, steady (k a)) → steady (m ≫= k).
Proof.
  intros Hm Hk w w' Hdom. unfold mbind, M_bind.
  specialize (Hm w w' Hdom).
  destruct (m w) as [[a|e] w1]; simpl in *; [|done].
  intros Hok. destruct (Hm I) as [Hres Hdom1].
  destruct (m w') as [r w1']; simpl in *. subst r.
  by apply Hk.
Qed.

Section Steady.
Context `{!Runtime}.
Hypothesis Hover : overwrite_tolerant.

Lemma steady_print (line : string) : steady (print line).
Proof. by intros w w' Hdom _. Qed.

Lemma steady_save (c : save_call) : steady (save c).
Proof.
  intros w w' Hdom. unfold save. destruct Hover as [Hs _].
  specialize (Hs c (fs w) (fs w') Hdom).
  destruct (on_save c (fs w)) as [n|e partial]; simpl; [|done].
  intros _. destruct (on_save c (fs w')) as [n'|e' partial']; simpl in *;
    [|by destruct (Hs I)].
  split; [done|]. rewrite !dom_insert_L. by apply union_mono_l.
Qed.

Lemma steady_eval (c : eval_call) : steady (eval c).
Proof.
  intros w w' Hdom. unfold eval. destruct Hover as [_ He].
  specialize (He c (fs w) (fs w')).
  destruct (on_eval c (fs w)) as [v|e]; simpl; [|done].
  intros _. by rewrite (He v Hdom eq_refl).
Qed.

Lemma exporters_steady (model sample_input name : pyval) (run : M unit) :
  run ∈ exporters model sample_input name → steady run.
Proof.
  unfold exporters. intros Hrun.
  repeat (apply elem_of_cons in Hrun as [-> | Hrun]);
    [repeat first [ apply steady_print | apply steady_save | apply steady_eval
                  | apply steady_bind; [|intros ?] ]..
    | by apply elem_of_nil in Hrun].
Qed.
End Steady.

(** ** Binding the keywords *)

Lemma bind_keywords_name_only (fname : string) (params : list string)
    (bound : gmap string pyval) (name : pyval) :
  "name" ∈ params → bound !! "name" = None →
  bind_keywords fname params bound [("name", name)] = Ok (<["name" := name]> bound).
Proof.
  intros Hin Hfree. simpl. rewrite bool_decide_eq_true_2 by done. by rewrite Hfree.
Qed.

(** A keyword whose parameter already has a value is refused, wherever it
    stands among the keywords. *)
Lemma bind_keywords_bound (fname : string) (params : list string)
    (kwargs : list (string * pyval)) (k : string) :
  k ∈ kwargs.*1 →
  ∀ bound, is_Some (bound !! k) →
    ∃ msg, bind_keywords fname params bound kwargs = Raise (TypeError msg).
Proof.
  induction kwargs as [|[k' v] kwargs IH]; intros Hin bound Hk.
  { by apply elem_of_nil in Hin. }
  simpl. case_bool_decide; [|by eexists].
  destruct (bound !! k') eqn:Hk'; [by eexists|].
  apply IH.
  - simpl in Hin. apply elem_of_cons in Hin as [-> | Hin]; [|done].
    rewrite Hk' in Hk. by destruct Hk.
  - destruct (decide (k' = k)) as [->|Hne].
    + rewrite Hk' in Hk. by destruct Hk.
    + by rewrite lookup_insert_ne.
Qed.

(** With the parameters [(model, name)], any keyword other than [name] is
    refused. *)
Lemma bind_keywords_extra (fname : string) (kwargs : list (string * pyval))
    (k : string) :
  k ∈ kwargs.*1 → k ≠ "name" →
  ∀ bound, is_Some (bound !! "model") →
    ∃ msg, bind_keywords fname ["model"; "name"] bound kwargs = Raise (TypeError msg).
Proof.
  intros Hin Hk bound Hmodel.
  destruct (decide (k = "model")) as [->|Hkm].
  { by eapply bind_keywords_bound. }
  revert bound Hmodel.
  induction kwargs as [|[k' v] kwargs IH]; intros bound Hmodel.
  { by apply elem_of_nil in Hin. }
  simpl. case_bool_decide as Hparam; [|by eexists].
  destruct (bound !! k') eqn:Hk'; [by eexists|].
  apply IH.
  - simpl in Hin. apply elem_of_cons in Hin as [-> | Hin]; [|done].
    rewrite !elem_of_cons, elem_of_nil in Hparam.
    destruct Hparam as [-> | [-> | []]]; [|done].
    rewrite Hk' in Hmodel. by destruct Hmodel.
  - destruct (decide (k' = "model")) as [->|Hne].
    + rewrite Hk' in Hmodel. by destruct Hmodel.
    + by rewrite lookup_insert_ne.
Qed.

Lemma getitem_contains (kwargs : list (string * pyval)) (k : string) :
  contains kwargs k = true → ∃ v, getitem kwargs k = mret v.
Proof.
  unfold contains. rewrite bool_decide_eq_true.
  induction kwargs as [|[k' v] kwargs IH]; intros Hin.
  { by apply elem_of_nil in Hin. }
  simpl. case_bool_decide as Hk; [by eexists|].
  apply IH. simpl in Hin. by apply elem_of_cons in Hin as [-> | Hin].
Qed.

(** ** The dispatcher *)

Section Dispatch.
Context `{!Runtime}.

(** The PyTorch branch hands [sample_input] to the exporter twice, once
    by position and once inside the keywords: the call is refused. *)
Lemma export_model_pytorch_refused (model : pyval) (framework : string)
    (kwargs : list (string * pyval)) :
  lower framework = "pytorch" →
  contains kwargs "sample_input" = true →
  ∃ msg, export_model model framework kwargs = raise (TypeError msg).
Proof.
  intros Hfw Hin. unfold export_model. rewrite Hfw, Hin.
  rewrite bool_decide_eq_false_2, bool_decide_eq_true_2 by done.
  destruct (getitem_contains _ _ Hin) as [v ->].
  unfold contains in Hin. apply bool_decide_eq_true in Hin.
  destruct (bind_keywords_bound "export_pytorch_model"
              ["model"; "sample_input"; "name"] kwargs "sample_input" Hin
              (list_to_map (zip ["model"; "sample_input"; "name"] [model; v])))
    as [msg Hmsg].
  { simpl. rewrite lookup_insert_ne by done. rewrite lookup_insert_eq. by eexists. }
  exists msg.
  cbv beta iota delta [mbind M_bind mret M_ret call_args negb].
  by rewrite Hmsg.
Qed.

(** A call of [export_model] either raises on the spot or is a call of
    one of the exporters. *)
Lemma export_model_dispatch (model : pyval) (framework : string)
    (kwargs : list (string * pyval)) :
  (∃ e, export_model model framework kwargs = raise e)
  ∨ (∃ sample_input name,
       export_model model framework kwargs ∈ exporters model sample_input name).
Proof.
  destruct (decide (lower framework = "pytorch")) as [Hpt|Hpt].
  { left. destruct (contains kwargs "sample_input") eqn:Hin.
    - destruct (export_model_pytorch_refused model framework kwargs Hpt Hin)
        as [msg ->]. by eexists.
    - unfold export_model. rewrite Hpt, Hin. by eexists. }
  unfold export_model, call_args.
  repeat case_bool_decide; try done;
    try (left; by eexists);
    match goal with
    | |- context [bind_keywords ?f ?ps ?b ?kw] =>
        destruct (bind_keywords f ps b kw) as [a|e];
          [right; exists model, (name_arg a); unfold exporters;
           rewrite !elem_of_cons; auto 10
          |left; by eexists]
    end.
Qed.
End Dispatch.

(** ** The dispatcher: tags it refuses, parameters it refuses *)

Section DispatchErrors.
Context `{!Runtime}.

Lemma unsupported_branch (model : pyval) (framework : string)
    (kwargs : list (string * pyval)) :
  ¬ supported framework →
  export_model model framework kwargs
  = raise (ValueError ("Unsupported framework: " +:+ lower framework)).
Proof.
  rewrite supported_lower. unfold supported_frameworks, export_model.
  rewrite !not_elem_of_cons. intros (? & ? & ? & ? & ? & ? & _).
  by rewrite !bool_decide_eq_false_2 by done.
Qed.

(** C2. For the tag [pytorch], in any case variant, a call of
    [export_model] whose keywords do not include [sample_input] raises
    the "missing required parameter" error (a [ValueError]) and leaves
    the world as it was: no file is written and no library routine is
    called. *)
Theorem export_model_pytorch_requires_sample_input (model : pyval)
    (framework : string) (kwargs : list (string * pyval)) (w : world) :
  lower framework = "pytorch" →
  contains kwargs "sample_input" = false →
  export_model model framework kwargs w
  = (Raise (ValueError "PyTorch export requires 'sample_input' argument"), w).
Proof.
  intros Hfw Hin. unfold export_model. by rewrite Hfw, Hin.
Qed.

(** C3. For a tag that matches none of the six supported values
    case-insensitively, [export_model] raises the "unsupported
    framework" error, whose message carries the tag (in lower case), and
    leaves the world as it was: no file is written and the trace gets no
    event, so no library routine is called. *)
Theorem export_model_unsupported_framework (model : pyval)
    (framework : string) (kwargs : list (string * pyval)) (w : world) :
  ¬ supported framework →
  export_model model framework kwargs w
  = (Raise (ValueError ("Unsupported framework: " +:+ lower framework)), w).
Proof.
  intros Hun. by rewrite unsupported_branch.
Qed.

(** C10. For an unsupported tag the message of the error is
    ["Unsupported framework: "] followed by the lower-case form of the
    tag; when the tag was not spelled in lower case, this is not the
    message that would name it as spelled. *)
Theorem unsupported_message_is_lowercased (model : pyval)
    (framework : string) (kwargs : list (string * pyval)) (w : world) :
  ¬ supported framework →
  ∃ msg,
    (export_model model framework kwargs w).1 = Raise (ValueError msg)
    ∧ msg = "Unsupported framework: " +:+ lower framework
    ∧ (lower framework ≠ framework →
       msg ≠ "Unsupported framework: " +:+ framework).
Proof.
  intros Hun. eexists. rewrite unsupported_branch by done.
  split_and!; [done..|].
  intros Hne Heq. by apply append_inv_head in Heq.
Qed.

(** C9. For the supported tags other than [pytorch], a call of
    [export_model] with a keyword other than [name] raises a [TypeError]
    and leaves the world as it was: these exporters take the model and
    the name only. *)
Theorem export_model_extra_keyword_refused (model : pyval)
    (framework : string) (kwargs : list (string * pyval)) (k : string)
    (w : world) :
  lower framework ∈ ["sklearn"; "xgboost"; "lightgbm"; "catboost"; "keras"] →
  k ∈ kwargs.*1 → k ≠ "name" →
  ∃ msg, export_model model framework kwargs w = (Raise (TypeError msg), w).
Proof.
  intros Hfw Hin Hk. unfold export_model, call_args.
  repeat (apply elem_of_cons in Hfw as [-> | Hfw]);
    [..|by apply elem_of_nil in Hfw].
  all: rewrite ?bool_decide_eq_false_2 by done.
  all: rewrite bool_decide_eq_true_2 by done.
  all: match goal with
       | |- context [bind_keywords ?f ?ps ?b ?kw] =>
           destruct (bind_keywords_extra f kw k Hin Hk b) as [msg Hmsg];
             [simpl; rewrite lookup_insert_eq; by eexists|]
       end.
  all: exists msg; unfold mbind, M_bind; by rewrite Hmsg.
Qed.

(** C1, where the code departs from it.  For the tag [pytorch], in any
    case variant, a call of [export_model] that does supply
    [sample_input] raises a [TypeError] and leaves the world as it was:
    the PyTorch exporter is never run and none of [N.pt], [N.bin],
    [N.onnx] is written. *)
Theorem export_model_pytorch_never_exports (model : pyval)
    (framework : string) (kwargs : list (string * pyval)) (w : world) :
  lower framework = "pytorch" →
  contains kwargs "sample_input" = true →
  ∃ msg, export_model model framework kwargs w = (Raise (TypeError msg), w).
Proof.
  intros Hfw Hin.
  destruct (export_model_pytorch_refused model framework kwargs Hfw Hin)
    as [msg ->].
  by exists msg.
Qed.
End DispatchErrors.

(** ** Failures of the library routines *)

Section Failures.
Context `{!Runtime}.

Lemma export_model_runs (model : pyval) (framework : string)
    (kwargs : list (string * pyval)) :
  ∃ paths, runs paths (export_model model framework kwargs)
           ∧ NoDup paths ∧ "models" ∉ paths.
Proof.
  destruct (export_model_dispatch model framework kwargs)
    as [[e ->] | (sample_input & name & Hrun)].
  - exists []. split_and!; [apply runs_raise|apply NoDup_nil_2|apply not_elem_of_nil].
  - by eapply exporters_run.
Qed.

(** C6. In a run of any exporter or of [export_model], when a library
    routine raises [e], the run ends there with [e] itself as its result:
    the failed call is the last event of the run (nothing is called after
    it, so nothing is retried and nothing recovers), and the exception
    reaches the caller as it was raised. *)
Theorem library_errors_propagate (model sample_input name : pyval)
    (framework : string) (kwargs : list (string * pyval)) (run : M unit)
    (w : world) (evs : list event) (i : nat) (ev : event) (e : exn) :
  run ∈ exporters model sample_input name
    ∨ run = export_model model framework kwargs →
  trace (run w).2 = trace w ++ evs →
  evs !! i = Some ev →
  failure ev = Some e →
  (run w).1 = Raise e ∧ length evs = S i.
Proof.
  intros Hrun Ht Hi He.
  assert (∃ paths, runs paths run) as [paths Hruns].
  { destruct Hrun as [Hrun | ->].
    - destruct (exporters_run _ _ _ _ Hrun) as (paths & ? & _). by exists paths.
    - destruct (export_model_runs model framework kwargs) as (paths & ? & _).
      by exists paths. }
  destruct (runs_trace _ _ _ _ Hruns Ht) as (_ & Hf & _).
  by apply (Hf i ev e).
Qed.

Lemma replay_keeps_dom (evs : list event) (files : gmap string node) (p : string) :
  is_Some (files !! p) → is_Some (replay evs files !! p).
Proof.
  revert files. induction evs as [|ev evs IH]; intros files Hp; [done|].
  rewrite replay_cons. apply IH. unfold apply_event.
  destruct (effect ev) as [[q n]|]; [|done].
  rewrite lookup_insert. by case_decide.
Qed.

(** C7. In a run of any exporter, whatever a writing call has written is
    on disk when the run ends, as that call wrote it, also when a later
    call of the run fails; and no path that existed before the run is
    missing after it.  Nothing is cleaned up or rolled back. *)
Theorem earlier_artifacts_remain (model sample_input name : pyval)
    (run : M unit) (w : world) (evs : list event) :
  run ∈ exporters model sample_input name →
  trace (run w).2 = trace w ++ evs →
  (∀ c n, Saved c n ∈ evs → fs (run w).2 !! target c = Some n)
  ∧ (∀ p, is_Some (fs w !! p) → is_Some (fs (run w).2 !! p)).
Proof.
  intros Hrun Ht.
  destruct (exporters_run _ _ _ _ Hrun) as (paths & Hruns & Hnd & _).
  split.
  - intros c n Hin. by eapply runs_keeps_saved.
  - intros p Hp. destruct (runs_trace _ _ _ _ Hruns Ht) as (-> & _).
    by apply replay_keeps_dom.
Qed.

End Failures.

(** ** The scikit-learn exporter *)

Section Sklearn.
Context `{!Runtime}.

(** C5. A successful run of the scikit-learn exporter writes three
    distinct paths, [models/N.pkl], [models/N.joblib] and [models/N.bin],
    and changes no other path; each is written by [joblib.dump] applied
    to the same object, the model; and, [joblib.dump] writing what the
    value it is given determines, the three artifacts are identical. *)
Theorem sklearn_three_duplicates (model name : pyval) (w : world) :
  (export_sklearn_model model name w).1 = Ok () →
  let pkl := "models/" +:+ fstr name +:+ ".pkl" in
  let jbl := "models/" +:+ fstr name +:+ ".joblib" in
  let bin := "models/" +:+ fstr name +:+ ".bin" in
  ∃ n1 n2 n3,
    fs (export_sklearn_model model name w).2
    = <[bin := n3]> (<[jbl := n2]> (<[pkl := n1]> (fs w)))
    ∧ (∃ line,
        trace (export_sklearn_model model name w).2
        = trace w ++ [Saved (joblib_dump model pkl) n1;
                      Saved (joblib_dump model jbl) n2;
                      Saved (joblib_dump model bin) n3;
                      Printed line])
    ∧ NoDup [pkl; jbl; bin]
    ∧ (joblib_serialises → n1 = n2 ∧ n2 = n3).
Proof.
  intros Hok pkl jbl bin. revert Hok.
  unfold export_sklearn_model, mbind, M_bind, save, print.
  fold pkl jbl bin.
  destruct (on_save (joblib_dump model pkl) (fs w)) as [n1|] eqn:H1;
    simpl; [|intros; discriminate].
  destruct (on_save (joblib_dump model jbl) (<[pkl := n1]> (fs w)))
    as [n2|] eqn:H2; simpl; [|intros; discriminate].
  destruct (on_save (joblib_dump model bin) (<[jbl := n2]> (<[pkl := n1]> (fs w))))
    as [n3|] eqn:H3; simpl; [|intros; discriminate].
  intros _. exists n1, n2, n3. split_and!.
  - done.
  - eexists. by rewrite <- !(assoc_L (++)).
  - paths_distinct.
  - intros Hser. split; eapply Hser; done.
Qed.
End Sklearn.

(** ** The directory [models] *)

Lemma prefix_app_cases {A} (pre l k : list A) :
  pre `prefix_of` l ++ k →
  pre `prefix_of` l ∨ ∃ pre', pre = l ++ pre' ∧ pre' `prefix_of` k.
Proof.
  revert pre. induction l as [|x l IH]; intros pre Hpre.
  { right. by exists pre. }
  destruct pre as [|y pre]; [left; apply prefix_nil|].
  simpl in Hpre. pose proof (prefix_cons_inv_1 _ _ _ _ Hpre) as ->.
  apply prefix_cons_inv_2 in Hpre.
  destruct (IH pre Hpre) as [Hl | (pre' & -> & Hk)].
  - left. by apply prefix_cons.
  - right. by exists pre'.
Qed.

Lemma filter_mkdir_none (evs : list event) :
  Forall (λ ev, is_mkdir ev = false) evs →
  filter (λ ev, is_mkdir ev = true) evs = [].
Proof.
  induction 1 as [|ev evs Hev _ IH]; [done|].
  rewrite filter_cons_False; [done|]. by rewrite Hev.
Qed.

Section ModelsDirectory.
Context `{!Runtime}.

Lemma import_module_present (w : world) :
  fs w !! "models" = Some Directory → import_module w = (Ok (), w).
Proof. intros Hdir. unfold import_module, makedirs. by rewrite Hdir. Qed.

Lemma import_module_absent (w : world) :
  fs w !! "models" = None →
  import_module w
  = (Ok (), World (<["models" := Directory]> (fs w)) (trace w ++ [MadeDir "models"])).
Proof. intros Hdir. unfold import_module, makedirs. by rewrite Hdir. Qed.

(** Calls of [export_model] create no directory and leave [models] in
    place at every point of the run. *)
Lemma requests_safe (rs : list (pyval * string * list (string * pyval))) (w : world) :
  fs w !! "models" = Some Directory →
  ∃ evs, trace (requests rs w).2 = trace w ++ evs
         ∧ Forall (λ ev, is_mkdir ev = false) evs
         ∧ ∀ pre, pre `prefix_of` evs →
             replay pre (fs w) !! "models" = Some Directory.
Proof.
  revert w. induction rs as [|[[model framework] kwargs] rs IH]; intros w Hdir.
  { exists []. simpl. rewrite app_nil_r. split_and!; [done..|].
    intros pre Hpre. by apply prefix_nil_inv in Hpre as ->. }
  destruct (export_model_runs model framework kwargs) as (paths & Hruns & _ & Hp).
  destruct (Hruns w) as (evs1 & Ht1 & Hfs1 & _ & _ & _ & Hmk1).
  pose proof (runs_keeps_other paths _ w "models" Hruns Hp evs1) as Hkeep.
  simpl. unfold mbind, M_bind, attempt.
  destruct (export_model model framework kwargs w) as [r w1]; simpl in *.
  destruct (IH w1) as (evs2 & Ht2 & Hmk2 & Hpre2).
  { rewrite Hfs1, (Hkeep evs1); done. }
  exists (evs1 ++ evs2). split_and!.
  - by rewrite Ht2, Ht1, (assoc_L (++)).
  - by apply Forall_app.
  - intros pre Hpre. apply prefix_app_cases in Hpre as [Hpre | (pre' & -> & Hpre)].
    + by rewrite (Hkeep pre).
    + rewrite replay_app, <- Hfs1. by apply Hpre2.
Qed.

(** C4, as the code has it.  The directory [models] is created when the
    module is imported, not when an export first needs it: a client that
    imports the module and makes no export has created it.  The creation
    is "create if absent": it makes [models] when it is absent and does
    nothing, without failing, when it is already a directory.  In any
    client run (the import, then any calls of [export_model]) the
    directory is created at most once, and at every writing call of an
    export the directory [models] exists. *)
Theorem models_directory_created_at_import (w : world) :
  (fs w !! "models" = Some Directory → import_module w = (Ok (), w))
  ∧ (fs w !! "models" = None →
     import_module w
     = (Ok (), World (<["models" := Directory]> (fs w))
                 (trace w ++ [MadeDir "models"])))
  ∧ (fs w !! "models" = None →
     client [] w
     = (Ok (), World (<["models" := Directory]> (fs w))
                 (trace w ++ [MadeDir "models"])))
  ∧ (∀ rs evs, trace (client rs w).2 = trace w ++ evs →
       (length (filter (λ ev, is_mkdir ev = true) evs) ≤ 1)%nat
       ∧ ∀ pre ev post, evs = pre ++ ev :: post → is_Some (save_path ev) →
           replay pre (fs w) !! "models" = Some Directory).
Proof.
  split_and!; [apply import_module_present|apply import_module_absent| |].
  { intros Hdir. unfold client, mbind, M_bind.
    by rewrite import_module_absent. }
  intros rs evs. unfold client, mbind, M_bind.
  destruct (fs w !! "models") as [[data|]|] eqn:Hdir.
  - unfold import_module, makedirs. rewrite Hdir. simpl.
    intros Ht. rewrite <- (app_nil_r (trace w)) in Ht at 1.
    apply app_inv_head in Ht as <-. split; [simpl; lia|].
    intros [|??] ???; done.
  - rewrite import_module_present by done.
    destruct (requests_safe rs w Hdir) as (evs' & Ht' & Hmk & Hpre).
    intros Ht. rewrite Ht' in Ht. apply app_inv_head in Ht as ->.
    split; [rewrite filter_mkdir_none by done; simpl; lia|].
    intros pre ev post -> _. apply Hpre. by eexists.
  - rewrite import_module_absent by done.
    destruct (requests_safe rs
                (World (<["models" := Directory]> (fs w)) (trace w ++ [MadeDir "models"])))
      as (evs' & Ht' & Hmk & Hpre).
    { simpl. apply lookup_insert_eq. }
    intros Ht. rewrite Ht' in Ht. simpl in Ht.
    rewrite <- (assoc_L (++)) in Ht. apply app_inv_head in Ht as <-.
    split.
    + rewrite filter_app, (filter_mkdir_none evs'), app_nil_r by done.
      rewrite filter_cons_True by done. simpl. lia.
    + intros [|ev0 pre] ev post Heq Hsave; simpl in Heq; simplify_eq.
      { by destruct Hsave. }
      rewrite replay_cons. apply Hpre. by eexists.
Qed.
End ModelsDirectory.

(** C4, as the specification words it, fails: the directory is not
    created lazily.  In a fresh working directory a client that only
    imports the module, and exports nothing, leaves [models] behind. *)
Lemma models_directory_not_lazy :
  @client healthy [] empty_world = (Ok (), imported_world)
  ∧ ¬ @created_lazily healthy.
Proof.
  split; [reflexivity|].
  intros Hlazy. specialize (Hlazy empty_world eq_refl).
  vm_compute in Hlazy. discriminate Hlazy.
Qed.

(** ** The dispatcher: the tags it serves *)

Section Routes.
Context `{!Runtime}.

(** With the output name as the only keyword, the five tags other than
    [pytorch] reach their exporter, which receives the model and the
    name. *)
Lemma export_model_routes (model : pyval) (framework : string) (name : pyval) :
  (lower framework = "sklearn" →
     export_model model framework [("name", name)] = export_sklearn_model model name)
  ∧ (lower framework = "xgboost" →
     export_model model framework [("name", name)] = export_xgboost_model model name)
  ∧ (lower framework = "lightgbm" →
     export_model model framework [("name", name)] = export_lightgbm_model model name)
  ∧ (lower framework = "catboost" →
     export_model model framework [("name", name)] = export_catboost_model model name)
  ∧ (lower framework = "keras" →
     export_model model framework [("name", name)] = export_keras_model model name).
Proof.
  split_and!; intros Hfw; unfold export_model; rewrite Hfw; reflexivity.
Qed.

(** Without keywords the exporter gets the default name, ["model"]. *)
Lemma export_model_default_name (model : pyval) (framework : string) :
  lower framework = "sklearn" →
  export_model model framework [] = export_sklearn_model model (VStr "model").
Proof. intros Hfw. unfold export_model. rewrite Hfw. reflexivity. Qed.

(** The mixed-case tag of end-to-end scenario 3. *)
Lemma export_model_XGBOOST (model : pyval) (N : string) :
  export_model model "XGBOOST" [("name", VStr N)]
  = export_xgboost_model model (VStr N).
Proof. reflexivity. Qed.

(** For these five tags the writing calls of a run are made on the paths
    of the artifact table, in its order, all of them when the run
    succeeds. *)
Lemma export_model_documented (model : pyval) (framework N : string) :
  lower framework ∈ ["sklearn"; "xgboost"; "lightgbm"; "catboost"; "keras"] →
  runs (documented_artifacts (lower framework) N)
       (export_model model framework [("name", VStr N)]).
Proof.
  intros Hfw.
  destruct (export_model_routes model framework (VStr N)) as (H1 & H2 & H3 & H4 & H5).
  repeat (apply elem_of_cons in Hfw as [Hfw | Hfw]);
    [rewrite ?H1, ?H2, ?H3, ?H4, ?H5 by done; rewrite Hfw..
    |by apply elem_of_nil in Hfw].
  - apply export_sklearn_model_runs.
  - apply export_xgboost_model_runs.
  - apply export_lightgbm_model_runs.
  - apply export_catboost_model_runs.
  - apply export_keras_model_runs.
Qed.

(** Called directly, the PyTorch exporter writes its three documented
    artifacts. *)
Lemma export_pytorch_model_documented (model sample_input : pyval) (N : string) :
  runs (documented_artifacts "pytorch" N)
       (export_pytorch_model model sample_input (VStr N)).
Proof. apply export_pytorch_model_runs. Qed.
End Routes.

(** ** Worked runs *)

Lemma healthy_joblib_serialises : @joblib_serialises healthy.
Proof. intros value p p' files files' n n' [= <-] [= <-]. reflexivity. Defined.

Lemma foo_unsupported : ¬ supported "foo".
Proof.
  intros (s & Hs & Heq). unfold matches_ci in Heq.
  rewrite (lower_supported s Hs) in Heq. subst s.
  apply (bool_decide_pack _) in Hs. vm_compute in Hs. exact Hs.
Defined.

Lemma FOO_unsupported : ¬ supported "FOO".
Proof.
  intros (s & Hs & Heq). unfold matches_ci in Heq.
  rewrite (lower_supported s Hs) in Heq. subst s.
  apply (bool_decide_pack _) in Hs. vm_compute in Hs. exact Hs.
Defined.

Lemma export_model_pytorch_never_exports_witness :
  ∃ msg, @export_model healthy a_model "PyTorch"
           [("name", VStr "net"); ("sample_input", a_tensor)] imported_world
         = (Raise (TypeError msg), imported_world).
Proof.
  apply export_model_pytorch_never_exports; vm_compute; reflexivity.
Defined.

Lemma export_model_pytorch_requires_sample_input_witness :
  @export_model healthy a_model "PYTORCH" [("name", VStr "net")] imported_world
  = (Raise (ValueError "PyTorch export requires 'sample_input' argument"),
     imported_world).
Proof.
  apply export_model_pytorch_requires_sample_input; vm_compute; reflexivity.
Defined.

Lemma export_model_unsupported_framework_witness :
  @export_model healthy a_model "foo" [("name", VStr "clf")] imported_world
  = (Raise (ValueError "Unsupported framework: foo"), imported_world).
Proof.
  apply (@export_model_unsupported_framework healthy a_model "foo").
  exact foo_unsupported.
Defined.

Lemma unsupported_message_is_lowercased_witness :
  ∃ msg,
    (@export_model healthy a_model "FOO" [] imported_world).1 = Raise (ValueError msg)
    ∧ msg = "Unsupported framework: foo"
    ∧ (lower "FOO" ≠ "FOO" → msg ≠ "Unsupported framework: FOO").
Proof.
  apply (@unsupported_message_is_lowercased healthy a_model "FOO" [] imported_world).
  exact FOO_unsupported.
Defined.

Lemma export_model_extra_keyword_refused_witness :
  ∃ msg, @export_model healthy a_model "sklearn"
           [("name", VStr "clf"); ("sample_input", a_tensor)] imported_world
         = (Raise (TypeError msg), imported_world).
Proof.
  apply (@export_model_extra_keyword_refused healthy a_model "sklearn" _ "sample_input").
  - apply (bool_decide_unpack _). vm_compute. exact I.
  - apply (bool_decide_unpack _). vm_compute. exact I.
  - apply (bool_decide_unpack _). vm_compute. exact I.
Defined.

Lemma library_errors_propagate_witness :
  (@export_sklearn_model disk_full a_model (VStr "clf") imported_world).1
  = Raise (OtherError "OSError" "No space left on device")
  ∧ length [Saved (joblib_dump a_model "models/clf.pkl") (File [Byte.x2a]);
            SaveFailed (joblib_dump a_model "models/clf.joblib")
              (OtherError "OSError" "No space left on device") (Some (File []))]
    = 2.
Proof.
  apply (@library_errors_propagate disk_full a_model a_tensor (VStr "clf") "" []
           _ imported_world _ 1
           (SaveFailed (joblib_dump a_model "models/clf.joblib")
              (OtherError "OSError" "No space left on device") (Some (File [])))).
  - left. apply list_elem_of_here.
  - vm_compute. reflexivity.
  - reflexivity.
  - reflexivity.
Defined.

Lemma earlier_artifacts_remain_witness :
  fs (@export_sklearn_model disk_full a_model (VStr "clf") imported_world).2
    !! "models/clf.pkl"
  = Some (File [Byte.x2a]).
Proof.
  refine (proj1 (@earlier_artifacts_remain disk_full a_model a_tensor (VStr "clf")
                   _ imported_world
                   [Saved (joblib_dump a_model "models/clf.pkl") (File [Byte.x2a]);
                    SaveFailed (joblib_dump a_model "models/clf.joblib")
                      (OtherError "OSError" "No space left on device")
                      (Some (File []))] _ _)
                (joblib_dump a_model "models/clf.pkl") (File [Byte.x2a]) _).
  - apply list_elem_of_here.
  - vm_compute. reflexivity.
  - apply list_elem_of_here.
Defined.

Lemma sklearn_three_duplicates_witness :
  ∃ n1 n2 n3,
    fs (@export_sklearn_model healthy a_model (VStr "clf") imported_world).2
    = <["models/clf.bin" := n3]>
        (<["models/clf.joblib" := n2]>
           (<["models/clf.pkl" := n1]> (fs imported_world)))
    ∧ n1 = n2 ∧ n2 = n3.
Proof.
  destruct (@sklearn_three_duplicates healthy a_model (VStr "clf") imported_world)
    as (n1 & n2 & n3 & Hfs & _ & _ & Hsame).
  - vm_compute. reflexivity.
  - exists n1, n2, n3. split; [exact Hfs|].
    exact (Hsame healthy_joblib_serialises).
Defined.

Lemma models_directory_created_at_import_witness :
  let evs :=
    [MadeDir "models";
     Saved (joblib_dump a_model "models/clf.pkl") (File [Byte.x80; Byte.x04]);
     Saved (joblib_dump a_model "models/clf.joblib") (File [Byte.x80; Byte.x04]);
     Saved (joblib_dump a_model "models/clf.bin") (File [Byte.x80; Byte.x04]);
     Printed "[INFO] Scikit-learn model exported as: clf.pkl, clf.joblib, clf.bin"] in
  (length (filter (λ ev, is_mkdir ev = true) evs) ≤ 1)%nat
  ∧ replay [MadeDir "models"] (fs empty_world) !! "models" = Some Directory.
Proof.
  intros evs.
  destruct (proj2 (proj2 (proj2 (@models_directory_created_at_import healthy empty_world)))
              [(a_model, "sklearn", [("name", VStr "clf")])] evs)
    as [Honce Hdir].
  - vm_compute. reflexivity.
  - split; [exact Honce|].
    apply (Hdir [MadeDir "models"]
             (Saved (joblib_dump a_model "models/clf.pkl") (File [Byte.x80; Byte.x04]))
             [Saved (joblib_dump a_model "models/clf.joblib") (File [Byte.x80; Byte.x04]);
              Saved (joblib_dump a_model "models/clf.bin") (File [Byte.x80; Byte.x04]);
              Printed "[INFO] Scikit-learn model exported as: clf.pkl, clf.joblib, clf.bin"]).
    + reflexivity.
    + eexists. reflexivity.
Defined.


(** * Further properties of the module *)

(** ** The dispatcher and the exporters it reaches *)

Section Reaches.
Context `{!Runtime}.

(** For the five tags other than [pytorch], in any case variant, a call of
    [export_model] with the keyword [name] is the call of the matching
    exporter on the model and that name, and a call without keywords is
    the call of that exporter with the default name ["model"]. *)
Theorem export_model_is_exporter (model : pyval) (framework : string) (name : pyval) :
  (lower framework = "sklearn" →
     export_model model framework [("name", name)] = export_sklearn_model model name
     ∧ export_model model framework [] = export_sklearn_model model (VStr "model"))
  ∧ (lower framework = "xgboost" →
     export_model model framework [("name", name)] = export_xgboost_model model name
     ∧ export_model model framework [] = export_xgboost_model model (VStr "model"))
  ∧ (lower framework = "lightgbm" →
     export_model model framework [("name", name)] = export_lightgbm_model model name
     ∧ export_model model framework [] = export_lightgbm_model model (VStr "model"))
  ∧ (lower framework = "catboost" →
     export_model model framework [("name", name)] = export_catboost_model model name
     ∧ export_model model framework [] = export_catboost_model model (VStr "model"))
  ∧ (lower framework = "keras" →
     export_model model framework [("name", name)] = export_keras_model model name
     ∧ export_model model framework [] = export_keras_model model (VStr "model")).
Proof.
  split_and!; intros Hfw; unfold export_model; rewrite Hfw; split; reflexivity.
Qed.

(** For these five tags, a successful call of [export_model] with the
    output name [N] makes its writing calls on the paths of the module's
    format list, in that order; the paths on disk afterwards are those
    before the call and these; and each holds what its call wrote. *)
Theorem export_model_writes_documented (model : pyval) (framework N : string)
    (w : world) (evs : list event) :
  lower framework ∈ ["sklearn"; "xgboost"; "lightgbm"; "catboost"; "keras"] →
  let run := export_model model framework [("name", VStr N)] in
  (run w).1 = Ok () →
  trace (run w).2 = trace w ++ evs →
  omap save_path evs = documented_artifacts (lower framework) N
  ∧ dom (fs (run w).2)
    = dom (fs w) ∪ list_to_set (documented_artifacts (lower framework) N)
  ∧ ∀ p, p ∈ documented_artifacts (lower framework) N →
      ∃ c n, Saved c n ∈ evs ∧ target c = p ∧ fs (run w).2 !! p = Some n.
Proof.
  intros Hfw run Hok Ht.
  pose proof (export_model_documented model framework N Hfw) as Hruns.
  fold run in Hruns.
  assert (NoDup (documented_artifacts (lower framework) N)) as Hnd.
  { repeat (apply elem_of_cons in Hfw as [-> | Hfw]);
      [unfold documented_artifacts; simpl; paths_distinct..
      |by apply elem_of_nil in Hfw]. }
  destruct (runs_trace _ _ _ _ Hruns Ht) as (Hfs & Hf & _ & Hall & Hmk).
  rewrite Hok in Hall, Hf. specialize (Hall I).
  split_and!; [done| |].
  - apply runs_dom; [done|]. by rewrite Hok.
  - intros p Hp. rewrite <- Hall in Hp.
    apply list_elem_of_omap in Hp as (ev & Hev & Hpath).
    pose proof (faithful_ok_no_failure _ _ _ Hf Hev) as Hno.
    destruct ev as [c n|c e partial| | | |]; simpl in *; simplify_eq.
    exists c, n. split_and!; [done..|].
    eapply runs_keeps_saved; done.
Qed.

(** When [models] exists as a regular file, importing the module raises
    [FileExistsError]; a client then makes no export, and nothing is
    changed. *)
Theorem import_blocked_by_file (rs : list (pyval * string * list (string * pyval)))
    (w : world) (data : list Byte.byte) :
  fs w !! "models" = Some (File data) →
  client rs w = (Raise (FileExistsError "models"), w).
Proof.
  intros Hfile. unfold client, mbind, M_bind, import_module, makedirs.
  by rewrite Hfile.
Qed.
End Reaches.

(** ** Case variants of a tag *)

Lemma lower_char_upper (c : ascii) :
  lower_char c = if is_upper c then small_of c else c.
Proof. reflexivity. Qed.

Lemma small_of_not_upper (c : ascii) :
  is_upper c = true → is_upper (small_of c) = false.
Proof.
  destruct c as [[] [] [] [] [] [] [] []]; vm_compute; congruence.
Qed.

Lemma same_letter_lower (c d : ascii) :
  same_letter c d = true → lower_char c = lower_char d.
Proof.
  unfold same_letter. rewrite !orb_true_iff, !andb_true_iff, !Ascii.eqb_eq.
  rewrite !lower_char_upper.
  intros [[-> | [Hup ->]] | [Hup ->]]; [done| |].
  - by rewrite Hup, (small_of_not_upper c Hup).
  - by rewrite Hup, (small_of_not_upper d Hup).
Qed.

Lemma same_ignoring_case_lower (s t : string) :
  same_ignoring_case s t = true → lower s = lower t.
Proof.
  revert t. induction s as [|c s IH]; intros [|d t]; simpl; try done.
  rewrite andb_true_iff. intros [Hc Hs].
  by rewrite (same_letter_lower c d Hc), (IH t Hs).
Qed.

(** Among the tags the model's strings hold (characters below U+0100, on
    which [str.lower] acts one character at a time), two tags that are
    case variants of each other are dispatched alike: the same exporter
    run, or the same error with the same message. *)
Theorem export_model_ignores_case `{!Runtime} (model : pyval) (tag tag' : string)
    (kwargs : list (string * pyval)) :
  same_ignoring_case tag tag' = true →
  export_model model tag kwargs = export_model model tag' kwargs.
Proof.
  intros Hsame. unfold export_model.
  by rewrite (same_ignoring_case_lower tag tag' Hsame).
Qed.

(** ** The paths of the artifacts *)

Lemma string_cons_inv (c d : ascii) (s t : string) :
  String c s = String d t → c = d ∧ s = t.
Proof. by intros [= -> ->]. Qed.

Ltac no_suffix s H :=
  destruct s as [|? s];
  [ first [reflexivity | simpl in H; discriminate H]
  | simpl in H;
    first [ discriminate H
          | apply string_cons_inv in H as [_ H]; no_suffix s H ] ].

(** No suffix of the exporters is the end of another one. *)
Lemma extension_no_suffix (e1 e2 s : string) :
  e1 ∈ artifact_extensions → e2 ∈ artifact_extensions →
  e1 = s +:+ e2 → s = "".
Proof.
  unfold artifact_extensions. intros H1 H2 H.
  repeat (apply elem_of_cons in H1 as [-> | H1]);
    [..|by apply elem_of_nil in H1].
  all: repeat (apply elem_of_cons in H2 as [-> | H2]);
    [..|by apply elem_of_nil in H2].
  all: no_suffix s H.
Qed.

Lemma artifact_suffix_inj (s1 s2 e1 e2 : string) :
  e1 ∈ artifact_extensions → e2 ∈ artifact_extensions →
  s1 +:+ e1 = s2 +:+ e2 → s1 = s2 ∧ e1 = e2.
Proof.
  intros H1 H2. revert s2.
  induction s1 as [|c s1 IH]; intros [|d s2] Heq; simpl in Heq.
  - done.
  - by pose proof (extension_no_suffix e1 e2 (String d s2) H1 H2 Heq).
  - symmetry in Heq.
    by pose proof (extension_no_suffix e2 e1 (String c s1) H2 H1 Heq).
  - apply string_cons_inv in Heq as [-> Heq].
    by destruct (IH s2 Heq) as [-> ->].
Qed.

Lemma runs_success_saved {A} (paths : list string) (m : M A) (w : world)
    (evs : list event) (p : string) :
  runs paths m → NoDup paths →
  is_ok (m w).1 →
  trace (m w).2 = trace w ++ evs →
  p ∈ paths →
  ∃ c n, Saved c n ∈ evs ∧ target c = p ∧ fs (m w).2 !! p = Some n.
Proof.
  intros Hruns Hnd Hok Ht Hp.
  destruct (runs_trace _ _ _ _ Hruns Ht) as (_ & Hf & _ & Hall & _).
  rewrite <- (Hall Hok) in Hp.
  apply list_elem_of_omap in Hp as (ev & Hev & Hpath).
  destruct ((m w).1) as [a|e] eqn:Hr; [|done].
  pose proof (faithful_ok_no_failure _ _ _ Hf Hev) as Hno.
  destruct ev as [c n|c e partial| | | |]; simpl in *; simplify_eq.
  exists c, n. split_and!; [done..|].
  eapply runs_keeps_saved; done.
Qed.

Section Paths.
Context `{!Runtime}.

(** Each exporter with its suffixes: it makes its writing calls on the
    paths these give, which are distinct. *)
Lemma exporters_paths (model sample_input name : pyval) (run : M unit)
    (exts : list string) :
  (run, exts) ∈ zip (exporters model sample_input name) exporter_extensions →
  runs (artifact_path name <$> exts) run
  ∧ NoDup (artifact_path name <$> exts)
  ∧ run ∈ exporters model sample_input name.
Proof.
  unfold exporters, exporter_extensions, artifact_path. simpl. intros Hrun.
  repeat (apply elem_of_cons in Hrun as [[= -> ->] | Hrun]);
    [..|by apply elem_of_nil in Hrun].
  - split_and!; [apply export_sklearn_model_runs|simpl; paths_distinct|].
    rewrite !elem_of_cons; auto 10.
  - split_and!; [apply export_pytorch_model_runs|simpl; paths_distinct|].
    rewrite !elem_of_cons; auto 10.
  - split_and!; [apply export_xgboost_model_runs|simpl; paths_distinct|].
    rewrite !elem_of_cons; auto 10.
  - split_and!; [apply export_lightgbm_model_runs|simpl; paths_distinct|].
    rewrite !elem_of_cons; auto 10.
  - split_and!; [apply export_catboost_model_runs|simpl; paths_distinct|].
    rewrite !elem_of_cons; auto 10.
  - split_and!; [apply export_keras_model_runs|simpl; paths_distinct|].
    rewrite !elem_of_cons; auto 10.
Qed.

(** The path of an artifact determines the output name and the suffix:
    two exports collide on a path only when they have the same output name
    and write the same suffix. *)
Theorem artifact_path_injective (name name' : pyval) (e e' : string) :
  e ∈ artifact_extensions → e' ∈ artifact_extensions →
  artifact_path name e = artifact_path name' e' →
  fstr name = fstr name' ∧ e = e'.
Proof.
  intros He He' Heq. unfold artifact_path in Heq.
  apply append_inv_head in Heq. by apply artifact_suffix_inj.
Qed.

Lemma bin_exporters_run (model sample_input name : pyval) (run : M unit) :
  run ∈ bin_exporters model sample_input name →
  ∃ paths, runs paths run ∧ NoDup paths ∧ artifact_path name ".bin" ∈ paths.
Proof.
  unfold bin_exporters, artifact_path. intros Hrun.
  repeat (apply elem_of_cons in Hrun as [-> | Hrun]);
    [..|by apply elem_of_nil in Hrun].
  - eexists. split_and!; [apply export_sklearn_model_runs|paths_distinct|].
    rewrite !elem_of_cons; auto.
  - eexists. split_and!; [apply export_pytorch_model_runs|paths_distinct|].
    rewrite !elem_of_cons; auto.
  - eexists. split_and!; [apply export_xgboost_model_runs|paths_distinct|].
    rewrite !elem_of_cons; auto.
  - eexists. split_and!; [apply export_lightgbm_model_runs|paths_distinct|].
    rewrite !elem_of_cons; auto.
  - eexists. split_and!; [apply export_catboost_model_runs|paths_distinct|].
    rewrite !elem_of_cons; auto.
Qed.

(** The five exporters other than the Keras one all write [models/N.bin].
    When two of them are run one after the other with the same output
    name, for any two models, and both succeed, each has written
    [N.bin], and the file left is the one the second run wrote. *)
Theorem bin_artifact_is_shared (model model' sample_input sample_input' name : pyval)
    (run run' : M unit) (w : world) (evs evs' : list event) :
  run ∈ bin_exporters model sample_input name →
  run' ∈ bin_exporters model' sample_input' name →
  (run w).1 = Ok () →
  (run' (run w).2).1 = Ok () →
  trace (run w).2 = trace w ++ evs →
  trace (run' (run w).2).2 = trace (run w).2 ++ evs' →
  (∃ c n, Saved c n ∈ evs ∧ target c = artifact_path name ".bin")
  ∧ (∃ c' n', Saved c' n' ∈ evs' ∧ target c' = artifact_path name ".bin"
              ∧ fs (run' (run w).2).2 !! artifact_path name ".bin" = Some n').
Proof.
  intros Hrun Hrun' Hok Hok' Ht Ht'.
  destruct (bin_exporters_run _ _ _ _ Hrun) as (paths & Hruns & Hnd & Hbin).
  destruct (bin_exporters_run _ _ _ _ Hrun') as (paths' & Hruns' & Hnd' & Hbin').
  split.
  - destruct (runs_success_saved paths run w evs (artifact_path name ".bin")
                Hruns Hnd) as (c & n & ? & ? & _);
      [by rewrite Hok|done..|].
    by exists c, n.
  - apply (runs_success_saved paths' run' (run w).2 evs' (artifact_path name ".bin")
             Hruns' Hnd'); [by rewrite Hok'|done..].
Qed.

End Paths.

(** ** The confirmation line *)

Lemma announcing_after {A} (m : M A) (k : A → M unit) :
  silent m → (∀ a, announcing (k a)) → announcing (m ≫= k).
Proof.
  intros Hm Hk w. unfold mbind, M_bind.
  destruct (Hm w) as (evs & Ht & Hq).
  destruct (m w) as [[a|e] w1]; simpl in *.
  - destruct (Hk a w1) as (evs' & Ht' & Hk').
    exists (evs ++ evs'). split; [by rewrite Ht', Ht, (assoc_L (++))|].
    destruct ((k a w1).1) as [[]|e].
    + destruct Hk' as (pre & line & -> & Hpre).
      exists (evs ++ pre), line. split; [by rewrite (assoc_L (++))|].
      by apply Forall_app.
    + by apply Forall_app.
  - by exists evs.
Qed.

Section Confirmation.
Context `{!Runtime}.

Lemma silent_save (c : save_call) : silent (save c).
Proof.
  intros w. unfold save. destruct (on_save c (fs w)) as [n|e [partial|]];
    eexists; split; simpl; try done; by repeat constructor.
Qed.

Lemma silent_eval (c : eval_call) : silent (eval c).
Proof.
  intros w. unfold eval. destruct (on_eval c (fs w)) as [v|e];
    eexists; split; simpl; try done; by repeat constructor.
Qed.

Lemma announcing_print (line : string) : announcing (print line).
Proof.
  intros w. exists [Printed line]. split; [done|]. simpl.
  exists [], line. by split.
Qed.

Lemma exporters_announce (model sample_input name : pyval) (run : M unit) :
  run ∈ exporters model sample_input name → announcing run.
Proof.
  unfold exporters. intros Hrun.
  repeat (apply elem_of_cons in Hrun as [-> | Hrun]);
    [repeat first [ apply announcing_print
                  | apply announcing_after;
                      [first [apply silent_save | apply silent_eval]|intros ?] ]..
    | by apply elem_of_nil in Hrun].
Qed.

(** An exporter prints its confirmation line exactly when it has
    succeeded, that is when every artifact has been written, and the line
    is then the last thing it does.  A failed export prints nothing. *)
Theorem confirmation_only_on_success (model sample_input name : pyval)
    (run : M unit) (w : world) (evs : list event) :
  run ∈ exporters model sample_input name →
  trace (run w).2 = trace w ++ evs →
  ((run w).1 = Ok () ↔ ∃ line, Printed line ∈ evs)
  ∧ ∀ i line, evs !! i = Some (Printed line) → length evs = S i.
Proof.
  intros Hrun Ht.
  destruct (exporters_announce _ _ _ _ Hrun w) as (evs' & Ht' & Hann).
  rewrite Ht' in Ht. apply app_inv_head in Ht as ->.
  assert (∀ l : list event, Forall (λ ev, is_print ev = false) l →
            ∀ line, Printed line ∉ l) as Hnone.
  { intros l Hl line Hin. rewrite Forall_forall in Hl.
    by specialize (Hl _ Hin). }
  destruct ((run w).1) as [[]|e].
  - destruct Hann as (pre & line & -> & Hpre). split.
    + split; [|done]. intros _. exists line. apply elem_of_app. right. by left.
    + intros i line' Hi. rewrite length_app. simpl.
      destruct (decide (i < length pre)) as [Hlt|Hge].
      * rewrite lookup_app_l in Hi by done.
        apply list_elem_of_lookup_2 in Hi. by apply Hnone in Hi.
      * rewrite lookup_app_r in Hi by lia.
        destruct (i - length pre) as [|j] eqn:Hj; [lia|by destruct j].
  - split.
    + split; [done|]. intros [line Hin]. by apply Hnone in Hin.
    + intros i line Hi. apply list_elem_of_lookup_2 in Hi. by apply Hnone in Hi.
Qed.
End Confirmation.

(** ** The Keras and PyTorch exporters, step by step *)

Ltac exec_step :=
  match goal with
  | |- context [match on_save ?c ?f with _ => _ end] =>
      let E := fresh "Ecall" in
      destruct (on_save c f) as [?|? [?|]] eqn:E; simpl
  | |- context [match on_eval ?c ?f with _ => _ end] =>
      let E := fresh "Ecall" in
      destruct (on_eval c f) as [?|?] eqn:E; simpl
  end.

Ltac events_of Ht evs :=
  rewrite <- ?(assoc_L (++)) in Ht; apply app_inv_head in Ht; subst evs.

Ltac pick_event Hin :=
  repeat (apply elem_of_cons in Hin as [Hin | Hin]; [try discriminate Hin|]);
  try (by apply elem_of_nil in Hin).

Section StepByStep.
Context `{!Runtime}.

(** In the Keras exporter the file [N.tflite] is opened only after the
    conversion has returned.  When [from_keras_model] or [convert] raises,
    the export ends with that exception, [N.h5] and [N_saved_model] have
    been written, and the path [N.tflite] is as it was before the call. *)
Theorem keras_conversion_failure (model name : pyval) (w : world)
    (evs : list event) (c : eval_call) (e : exn) :
  let run := export_keras_model model name in
  trace (run w).2 = trace w ++ evs →
  EvalFailed c e ∈ evs →
  (run w).1 = Raise e
  ∧ fs (run w).2 !! artifact_path name ".tflite"
    = fs w !! artifact_path name ".tflite"
  ∧ (∃ n, Saved (keras_save model (artifact_path name ".h5") None) n ∈ evs
          ∧ fs (run w).2 !! artifact_path name ".h5" = Some n)
  ∧ (∃ n, Saved (keras_save model (artifact_path name "_saved_model") (Some "tf")) n
            ∈ evs
          ∧ fs (run w).2 !! artifact_path name "_saved_model" = Some n).
Proof.
  intros run. unfold run, export_keras_model, artifact_path,
    mbind, M_bind, save, eval, print.
  repeat exec_step; intros Ht Hin; events_of Ht evs; pick_event Hin.
  all: injection Hin as -> ->.
  all: split_and!; [done| |eexists; split|eexists; split].
  all: simpl.
  all: try (repeat first [apply list_elem_of_here | apply list_elem_of_further]).
  all: rewrite ?lookup_insert_ne by path_neq.
  all: first [done | apply lookup_insert_eq].
Qed.

(** A successful run of the PyTorch exporter is this sequence of calls:
    it asks the model for its [state_dict] and hands it to [torch.save] for
    [N.pt], asks again and hands that to [torch.save] for [N.bin], exports
    the model itself, with the sample input, to [N.onnx] with
    [export_params=True], [opset_version=12] and
    [do_constant_folding=True], and prints its line.  The three paths then
    hold what these calls wrote to them. *)
Theorem pytorch_export_contents (model sample_input name : pyval) (w : world) :
  let run := export_pytorch_model model sample_input name in
  (run w).1 = Ok () →
  ∃ sd sd' n1 n2 n3 line,
    trace (run w).2
    = trace w ++ [Evaluated (state_dict model) sd;
                  Saved (torch_save sd (artifact_path name ".pt")) n1;
                  Evaluated (state_dict model) sd';
                  Saved (torch_save sd' (artifact_path name ".bin")) n2;
                  Saved (torch_onnx_export model sample_input
                           (artifact_path name ".onnx") true 12 true) n3;
                  Printed line]
    ∧ fs (run w).2 !! artifact_path name ".pt" = Some n1
    ∧ fs (run w).2 !! artifact_path name ".bin" = Some n2
    ∧ fs (run w).2 !! artifact_path name ".onnx" = Some n3.
Proof.
  intros run. unfold run, export_pytorch_model, artifact_path,
    mbind, M_bind, save, eval, print.
  repeat exec_step; intros Hok; try discriminate Hok.
  do 6 eexists. split_and!.
  - by rewrite <- !(assoc_L (++)).
  - rewrite !lookup_insert_ne by path_neq. apply lookup_insert_eq.
  - rewrite lookup_insert_ne by path_neq. apply lookup_insert_eq.
  - apply lookup_insert_eq.
Qed.
End StepByStep.

(** ** Worked runs, continued *)

Lemma export_model_is_exporter_witness :
  @export_model healthy a_model "sklearn" [("name", VStr "my_model")]
  = @export_sklearn_model healthy a_model (VStr "my_model")
  ∧ @export_model healthy a_model "sklearn" []
    = @export_sklearn_model healthy a_model (VStr "model").
Proof.
  apply (proj1 (@export_model_is_exporter healthy a_model "sklearn" (VStr "my_model"))).
  reflexivity.
Defined.

Lemma export_model_writes_documented_witness :
  let run := @export_model healthy a_model "XGBOOST" [("name", VStr "clf")] in
  let evs := [Saved (save_model a_model "models/clf.bin") (File [Byte.x2a]);
              Saved (save_model a_model "models/clf.json") (File [Byte.x2a]);
              Printed "[INFO] XGBoost model exported as: clf.bin, clf.json"] in
  omap save_path evs = ["models/clf.bin"; "models/clf.json"]
  ∧ dom (fs (run imported_world).2)
    = dom (fs imported_world) ∪ list_to_set ["models/clf.bin"; "models/clf.json"].
Proof.
  intros run evs.
  destruct (@export_model_writes_documented healthy a_model "XGBOOST" "clf"
              imported_world evs) as (Hcalls & Hdom & _).
  - apply (bool_decide_unpack _). vm_compute. exact I.
  - vm_compute. reflexivity.
  - vm_compute. reflexivity.
  - split; [exact Hcalls | exact Hdom].
Defined.

Lemma import_blocked_by_file_witness :
  @client healthy [(a_model, "sklearn", [("name", VStr "clf")])] blocked_world
  = (Raise (FileExistsError "models"), blocked_world).
Proof.
  apply (@import_blocked_by_file healthy _ blocked_world []).
  vm_compute. reflexivity.
Defined.

Lemma export_model_ignores_case_witness :
  @export_model healthy a_model "XgBoost" [("name", VStr "clf")]
  = @export_model healthy a_model "xgboost" [("name", VStr "clf")].
Proof.
  apply export_model_ignores_case. vm_compute. reflexivity.
Defined.

Lemma artifact_path_injective_witness :
  @fstr healthy (VStr "clf") = @fstr healthy (VStr "clf") ∧ ".bin" = ".bin".
Proof.
  apply (@artifact_path_injective healthy (VStr "clf") (VStr "clf") ".bin" ".bin").
  - apply (bool_decide_unpack _). vm_compute. exact I.
  - apply (bool_decide_unpack _). vm_compute. exact I.
  - reflexivity.
Defined.

Lemma bin_artifact_is_shared_witness :
  let run := @export_sklearn_model healthy a_model (VStr "model") in
  let run' := @export_xgboost_model healthy (VObj 3) (VStr "model") in
  ∃ c' n',
    Saved c' n'
      ∈ [Saved (save_model (VObj 3) "models/model.bin") (File [Byte.x2a]);
         Saved (save_model (VObj 3) "models/model.json") (File [Byte.x2a]);
         Printed "[INFO] XGBoost model exported as: model.bin, model.json"]
    ∧ target c' = "models/model.bin"
    ∧ fs (run' (run imported_world).2).2 !! "models/model.bin" = Some n'.
Proof.
  intros run run'.
  refine (proj2 (@bin_artifact_is_shared healthy a_model (VObj 3) a_tensor a_tensor
                   (VStr "model") run run' imported_world
                   [Saved (joblib_dump a_model "models/model.pkl")
                      (File [Byte.x80; Byte.x04]);
                    Saved (joblib_dump a_model "models/model.joblib")
                      (File [Byte.x80; Byte.x04]);
                    Saved (joblib_dump a_model "models/model.bin")
                      (File [Byte.x80; Byte.x04]);
                    Printed "[INFO] Scikit-learn model exported as: model.pkl, model.joblib, model.bin"]
                   _ _ _ _ _ _ _)).
  - apply list_elem_of_here.
  - do 2 apply list_elem_of_further. apply list_elem_of_here.
  - vm_compute. reflexivity.
  - vm_compute. reflexivity.
  - vm_compute. reflexivity.
  - vm_compute. reflexivity.
Defined.

Lemma confirmation_only_on_success_witness :
  let run := @export_sklearn_model disk_full a_model (VStr "clf") in
  let evs := [Saved (joblib_dump a_model "models/clf.pkl") (File [Byte.x2a]);
              SaveFailed (joblib_dump a_model "models/clf.joblib")
                (OtherError "OSError" "No space left on device")
                (Some (File []))] in
  (run imported_world).1 = Ok () ↔ ∃ line, Printed line ∈ evs.
Proof.
  intros run evs.
  refine (proj1 (@confirmation_only_on_success disk_full a_model a_tensor
                   (VStr "clf") run imported_world evs _ _)).
  - apply list_elem_of_here.
  - vm_compute. reflexivity.
Defined.

Lemma keras_conversion_failure_witness :
  (@export_keras_model conversion_fails a_model (VStr "net") imported_world).1
  = Raise (OtherError "ConverterError" "unsupported op")
  ∧ fs (@export_keras_model conversion_fails a_model (VStr "net") imported_world).2
      !! "models/net.tflite"
    = fs imported_world !! "models/net.tflite".
Proof.
  destruct (@keras_conversion_failure conversion_fails a_model (VStr "net")
              imported_world
              [Saved (keras_save a_model "models/net.h5" None) (File [Byte.x2a]);
               Saved (keras_save a_model "models/net_saved_model" (Some "tf"))
                 (File [Byte.x2a]);
               Evaluated (from_keras_model a_model) (VObj 101);
               EvalFailed (convert (VObj 101))
                 (OtherError "ConverterError" "unsupported op")]
              (convert (VObj 101))
              (OtherError "ConverterError" "unsupported op"))
    as (Hres & Htflite & _).
  - vm_compute. reflexivity.
  - do 3 apply list_elem_of_further. apply list_elem_of_here.
  - split; [exact Hres | exact Htflite].
Defined.

Lemma pytorch_export_contents_witness :
  ∃ sd sd' n1 n2,
    Saved (torch_save sd "models/net.pt") n1
      ∈ trace (@export_pytorch_model healthy a_model a_tensor (VStr "net")
                 imported_world).2
    ∧ Saved (torch_save sd' "models/net.bin") n2
      ∈ trace (@export_pytorch_model healthy a_model a_tensor (VStr "net")
                 imported_world).2.
Proof.
  destruct (@pytorch_export_contents healthy a_model a_tensor (VStr "net")
              imported_world)
    as (sd & sd' & n1 & n2 & n3 & line & Ht & _).
  - vm_compute. reflexivity.
  - exists sd, sd', n1, n2. rewrite Ht. split.
    + apply elem_of_app. right.
      apply list_elem_of_further, list_elem_of_here.
    + apply elem_of_app. right.
      do 3 apply list_elem_of_further. apply list_elem_of_here.
Defined.

Lemma healthy_overwrite_tolerant : @overwrite_tolerant healthy.
Proof. split; [intros c files files' _ Hw|intros c files files' v _ Hv]; assumption. Defined.

